(** * Reset-password route: verification handler, loader and action

    Shallow embedding of
    [app/routes/_auth+/reset-password.tsx]: the exported functions
    [handleVerification], [loader] and [action], over an explicit
    model of the collaborators they call (the account store behind
    [prisma.user.findFirst], the cookie session storage
    [verifySessionStorage], the form parser [parse]) and of the
    [json] / [redirect] response helpers. *)

From Stdlib Require Import List Ascii String.
From stdpp Require Import gmap strings list fin_maps.

Open Scope string_scope.
Open Scope list_scope.
Set Warnings "-register-all".

(** ** JSON values and HTTP responses *)

(** What [json(...)] serialises: only the shapes this route produces. *)
Inductive Json : Type :=
| JNull
| JString (s : string)
| JArray (items : list Json)
| JObject (fields : list (string * Json)).

(** Property lookup in an association list, first binding wins. *)
Fixpoint assoc {A : Type} (k : string) (l : list (string * A)) : option A :=
  match l with
  | [] => None
  | (k', v) :: l' => if decide (k' = k) then Some v else assoc k l'
  end.

(** [j[k]] for an object [j]; absent for every other shape. *)
Definition jget (k : string) (j : Json) : option Json :=
  match j with
  | JObject fields => assoc k fields
  | _ => None
  end.

(** [j[k1][k2]...] *)
Fixpoint jpath (ks : list string) (j : Json) : option Json :=
  match ks with
  | [] => Some j
  | k :: ks' =>
      match jget k j with
      | Some j' => jpath ks' j'
      | None => None
      end
  end.

Class ToJson (A : Type) := to_json : A -> Json.

Record Response : Type := mkResponse {
  status : Z;
  headers : list (string * string);
  body : option Json;
}.

(** [response.headers.get(name)] *)
Definition header (name : string) (r : Response) : option string :=
  assoc name (headers r).

(** Number of header lines called [name]. *)
Definition headerCount (name : string) (r : Response) : nat :=
  length (filter (fun kv => kv.1 = name) (headers r)).

(** Remix's [json(data, init)]: status 200 unless [init.status] is
    given, a JSON content type, and the serialised data as body. *)
Definition json (data : Json) (init_status : option Z) : Response :=
  {| status := default 200%Z init_status;
     headers := [("content-type", "application/json; charset=utf-8")];
     body := Some data |}.

(** Remix's [redirect(url, init)]: status 302, the headers of [init]
    followed by [Location], and no body. *)
Definition redirect (url : string) (init_headers : list (string * string))
  : Response :=
  {| status := 302%Z;
     headers := init_headers ++ [("location", url)];
     body := None |}.

(** ** Submissions *)

(** A field error of conform: [string | string[]]. *)
Inductive ErrorValue : Type :=
| ErrString (s : string)
| ErrStrings (l : list string).

#[global] Instance ErrorValue_to_json : ToJson ErrorValue :=
  fun e =>
    match e with
    | ErrString s => JString s
    | ErrStrings l => JArray (map JString l)
    end.

(** conform's [Submission<V>]: [value] is [undefined] unless the
    payload passed the schema. *)
Record Submission (V : Type) : Type := mkSubmission {
  intent : string;
  payload : list (string * string);
  error : gmap string ErrorValue;
  value : option V;
}.
Arguments mkSubmission {V} _ _ _ _.
Arguments intent {V} _.
Arguments payload {V} _.
Arguments error {V} _.
Arguments value {V} _.

(** [JSON.stringify] leaves out a property whose value is [undefined]. *)
#[global] Instance Submission_to_json {V} `{ToJson V} : ToJson (Submission V) :=
  fun s =>
    JObject
      ([("intent", JString (intent s));
        ("payload", JObject (map (fun kv => (kv.1, JString kv.2)) (payload s)));
        ("error", JObject (map_to_list (to_json <$> error s)))]
       ++ match value s with
          | Some v => [("value", to_json v)]
          | None => []
          end).

(** [submission.error[k] = msg], the other fields kept. *)
Definition set_error {V} (k msg : string) (s : Submission V) : Submission V :=
  {| intent := intent s;
     payload := payload s;
     error := <[k := ErrString msg]> (error s);
     value := value s |}.

(** The validated value of a verification submission. The handler
    reads [target] only; the other fields of the schema are declared
    in [verify.tsx]. *)
Record VerifyValue : Type := mkVerifyValue {
  target : string;
}.

#[global] Instance VerifyValue_to_json : ToJson VerifyValue :=
  fun v => JObject [("target", JString (target v))].

(** The value of [ResetPasswordSchema]. *)
Record ResetPasswordValue : Type := mkResetPasswordValue {
  password : string;
  confirmPassword : string;
}.

#[global] Instance ResetPasswordValue_to_json : ToJson ResetPasswordValue :=
  fun v => JObject [("password", JString (password v));
                    ("confirmPassword", JString (confirmPassword v))].

(** ** Requests *)

Record Request : Type := mkRequest {
  req_headers : gmap string string;
  req_formData : list (string * string);
}.

(** [request.headers.get(name)], [null] when absent. *)
Definition headers_get (name : string) (r : Request) : option string :=
  req_headers r !! name.

(** Objects are passed by reference. *)
Definition ref := positive.

Record VerifyFunctionArgs : Type := mkVerifyFunctionArgs {
  request : Request;
  submission : ref;
}.

(** ** The account store *)

Record User : Type := mkUser {
  userId : string;
  email : string;
  username : string;
}.

(** [select: { email: true, username: true }] *)
Record UserEmailUsername : Type := mkSelected {
  sel_email : string;
  sel_username : string;
}.

Definition select_email_username (u : User) : UserEmailUsername :=
  {| sel_email := email u; sel_username := username u |}.

(** [where: { OR: [{ email: target }, { username: target }] }] *)
Definition where_email_or_username (t : string) (u : User) : bool :=
  bool_decide (email u = t) || bool_decide (username u = t).

(** ** Sessions *)

Abbreviation Session := (gmap string string).

(** The two operations of [verifySessionStorage] the handler calls. *)
Class SessionStorage : Type := {
  getSession : option string -> Session;
  commitSession : Session -> string;
}.

(** A committed session parses back to itself. *)
Class SessionRoundTrip {SS : SessionStorage} : Prop :=
  get_commit : forall s : Session, getSession (Some (commitSession s)) = s.

(** ** Worlds, effects and the computation monad *)

Record World : Type := mkWorld {
  users : list User;
  heap : gmap ref (Submission VerifyValue);
}.

(** Calls made to the collaborators, in program order. *)
Inductive Effect : Type :=
| DbFindFirst (t : string)
| SessionLoaded (cookie : option string)
| SessionCommitted (data : Session) (cookie : string).

(** How a call ends: it returns, or an [Error] with a message
    propagates to the framework. *)
Inductive Completion (A : Type) : Type :=
| Normal (a : A)
| Thrown (message : string).
Arguments Normal {A} a.
Arguments Thrown {A} message.

Definition M (A : Type) : Type := World -> Completion A * World * list Effect.

Definition ret {A} (a : A) : M A := fun w => (Normal a, w, []).

Definition throw {A} (message : string) : M A :=
  fun w => (Thrown message, w, []).

Definition bind {A B} (m : M A) (k : A -> M B) : M B :=
  fun w =>
    match m w with
    | (Normal a, w1, e1) =>
        match k a w1 with
        | (c, w2, e2) => (c, w2, e1 ++ e2)
        end
    | (Thrown msg, w1, e1) => (Thrown msg, w1, e1)
    end.

Notation "'let*' x := m 'in' k" := (bind m (fun x => k))
  (at level 10, x name, m at level 100, k at level 200,
   format "'[v' 'let*'  x  :=  m  'in' '/' k ']'").

Definition emit (e : Effect) : M unit := fun w => (Normal tt, w, [e]).

(** Reading through a reference. A reference of a running program
    always points to an object; the second branch is there for
    totality. *)
Definition deref (r : ref) : M (Submission VerifyValue) :=
  fun w =>
    match heap w !! r with
    | Some s => (Normal s, w, [])
    | None => (Thrown "dangling reference", w, [])
    end.

(** In-place update of the object behind a reference. *)
Definition update (r : ref) (f : Submission VerifyValue -> Submission VerifyValue)
  : M unit :=
  fun w =>
    match heap w !! r with
    | Some s =>
        (Normal tt, {| users := users w; heap := <[r := f s]> (heap w) |}, [])
    | None => (Thrown "dangling reference", w, [])
    end.

(** Modelled from the spec: [prisma.user.findFirst] of the account
    store collaborator, "find first account where email = X or
    username = X", a read of the store. *)
Definition prisma_user_findFirst (t : string) : M (option UserEmailUsername) :=
  let* _ := emit (DbFindFirst t) in
  fun w =>
    (Normal (select_email_username <$> find (where_email_or_username t) (users w)),
     w, []).

(** Modelled from the spec: [invariant] of [~/utils/misc.tsx], an
    assertion-style failure: it throws [message] when the condition is
    absent and narrows it otherwise. *)
Definition invariant {A} (condition : option A) (message : string) : M A :=
  match condition with
  | Some a => ret a
  | None => throw message
  end.

Section Route.

Context {SS : SessionStorage}.

Definition verifySessionStorage_getSession (cookie : option string) : M Session :=
  let* _ := emit (SessionLoaded cookie) in
  ret (getSession cookie).

Definition verifySessionStorage_commitSession (s : Session) : M string :=
  let cookie := commitSession s in
  let* _ := emit (SessionCommitted s cookie) in
  ret cookie.

Definition resetPasswordUsernameSessionKey : string := "resetPasswordUsername".

Definition handleVerification (args : VerifyFunctionArgs) : M Response :=
  let* s := deref (submission args) in
  let* v := invariant (value s) "submission.value should be defined by now" in
  let target := target v in
  let* user := prisma_user_findFirst target in
  match user with
  | None =>
      let* _ := update (submission args) (set_error "code" "Invalid code") in
      let* s' := deref (submission args) in
      ret (json (JObject [("status", JString "error");
                          ("submission", to_json s')])
                (Some 400%Z))
  | Some user =>
      let* verifySession := verifySessionStorage_getSession
                              (headers_get "cookie" (request args)) in
      let verifySession :=
        <[resetPasswordUsernameSessionKey := sel_username user]> verifySession in
      let* cookie := verifySessionStorage_commitSession verifySession in
      ret (redirect "/reset-password" [("set-cookie", cookie)])
  end.

Definition loader : M Response :=
  let resetPasswordUsername := "get this from the session" in
  ret (json (JObject [("resetPasswordUsername", JString resetPasswordUsername)])
            None).

(** conform's [parse(formData, { schema: ResetPasswordSchema, ... })]:
    the evaluation of the schema belongs to the form libraries. *)
Variable parse : list (string * string) -> Submission ResetPasswordValue.

(** JavaScript truthiness of [submission.value?.password]. *)
Definition truthy_password (s : Submission ResetPasswordValue) : bool :=
  match value s with
  | Some v => negb (bool_decide (password v = ""))
  | None => false
  end.

Definition action (request : Request) : M Response :=
  let formData := req_formData request in
  let submission := parse formData in
  if negb (bool_decide (intent submission = "submit")) then
    ret (json (JObject [("status", JString "idle");
                        ("submission", to_json submission)])
              None)
  else if negb (truthy_password submission) then
    ret (json (JObject [("status", JString "error");
                        ("submission", to_json submission)])
              (Some 400%Z))
  else
    throw "This has not yet been implemented".

End Route.

(** ** An unsigned cookie codec

    An instance of [SessionStorage] that writes a session as text:
    every character of a key or value is preceded by [+], a string
    ends with [.], every entry is preceded by [+] and the list ends
    with [.]. A header that does not parse gives the empty session,
    as does an absent header. *)
Module Codec.

Fixpoint encodeString (s : string) : string :=
  match s with
  | EmptyString => "."
  | String c s' => String "+"%char (String c (encodeString s'))
  end.

Fixpoint decodeString (s : string) : option (string * string) :=
  match s with
  | String "."%char rest => Some (EmptyString, rest)
  | String "+"%char (String c rest) =>
      match decodeString rest with
      | Some (d, r) => Some (String c d, r)
      | None => None
      end
  | _ => None
  end.

Fixpoint encodeEntries (l : list (string * string)) : string :=
  match l with
  | [] => "."
  | (k, v) :: l' =>
      String "+"%char (encodeString k +:+ encodeString v +:+ encodeEntries l')
  end.

Fixpoint decodeEntries (fuel : nat) (s : string)
  : option (list (string * string)) :=
  match fuel with
  | O => None
  | S fuel' =>
      match s with
      | String "."%char EmptyString => Some []
      | String "+"%char rest =>
          match decodeString rest with
          | Some (k, r1) =>
              match decodeString r1 with
              | Some (v, r2) =>
                  match decodeEntries fuel' r2 with
                  | Some l => Some ((k, v) :: l)
                  | None => None
                  end
              | None => None
              end
          | None => None
          end
      | _ => None
      end
  end.

Definition parseCookie (c : string) : Session :=
  match decodeEntries (String.length c) c with
  | Some l => list_to_map l
  | None => ∅
  end.

#[export] Instance storage : SessionStorage := {|
  getSession cookie :=
    match cookie with
    | Some c => parseCookie c
    | None => ∅
    end;
  commitSession s := encodeEntries (map_to_list s);
|}.

End Codec.

(** ** A reference form parser

    A stand-in for conform's [parse] with [ResetPasswordSchema]: the
    intent is the [__intent__] entry ([submit] when there is none),
    the other entries are the payload, both fields go through
    [passwordSchema], and the refinement of the schema reports
    unequal passwords under [confirmPassword]. The value is defined
    when no issue was reported. *)
Module FormParser.

Section Schema.

(** The issues [passwordSchema] of [~/utils/user-validation.ts]
    reports for a string. *)
Variable passwordSchema : string -> list string.

Definition field (name : string) (payload : list (string * string))
  : option string * list string :=
  match assoc name payload with
  | Some x => (Some x, passwordSchema x)
  | None => (None, ["Required"])
  end.

Definition refinement (p c : option string) : list string :=
  match p, c with
  | Some p, Some c =>
      if bool_decide (p = c) then [] else ["The passwords did not match"]
  | _, _ => []
  end.

Definition issues (name : string) (l : list string)
  (e : gmap string ErrorValue) : gmap string ErrorValue :=
  match l with
  | [] => e
  | _ :: _ => <[name := ErrStrings l]> e
  end.

Definition parse (formData : list (string * string))
  : Submission ResetPasswordValue :=
  let intent := default "submit" (assoc "__intent__" formData) in
  let payload := filter (fun kv => kv.1 ≠ "__intent__") formData in
  let '(p, ep) := field "password" payload in
  let '(c, ec) := field "confirmPassword" payload in
  let ec := ec ++ refinement p c in
  let error := issues "password" ep (issues "confirmPassword" ec ∅) in
  let value :=
    match p, c, ep, ec with
    | Some p, Some c, [], [] => Some (mkResetPasswordValue p c)
    | _, _, _, _ => None
    end in
  mkSubmission intent payload error value.

End Schema.

(** A password of 6 to 100 characters. *)
Definition lengthSchema (p : string) : list string :=
  (if bool_decide (6 <= String.length p)%nat then [] else ["Password is too short"])
  ++ (if bool_decide (String.length p <= 100)%nat then [] else ["Password is too long"]).

End FormParser.

(** ** Observations on a run *)

(** The target of the submission resolves to an account of the store. *)
Definition resolved (args : VerifyFunctionArgs) (w : World) : Prop :=
  exists s v u,
    heap w !! submission args = Some s /\ value s = Some v /\
    u ∈ users w /\ (email u = target v \/ username u = target v).

(** A session holding the reset-authorization entry was committed. *)
Definition sessionEntrySet (evs : list Effect) : Prop :=
  exists data cookie name,
    SessionCommitted data cookie ∈ evs /\
    data !! "resetPasswordUsername" = Some name.

(** The call returned a response that sets a cookie. *)
Definition cookieSet (c : Completion Response) : Prop :=
  exists resp cookie, c = Normal resp /\ header "set-cookie" resp = Some cookie.

(** The effect is a call to the session storage. *)
Definition isSessionEffect (e : Effect) : bool :=
  match e with
  | DbFindFirst _ => false
  | SessionLoaded _ | SessionCommitted _ _ => true
  end.

(** ** Scenarios *)
Module Scenario.

Definition alice : User :=
  {| userId := "u1"; email := "alice@example.com"; username := "alice" |}.

Definition bob : User :=
  {| userId := "u2"; email := "bob@example.com"; username := "bob" |}.

(** A verified submission for target [t]. *)
Definition verified (t : string) : Submission VerifyValue :=
  {| intent := "submit";
     payload := [("target", t)];
     error := ∅;
     value := Some {| target := t |} |}.

(** A submission whose value is not defined. *)
Definition unvalidated : Submission VerifyValue :=
  {| intent := "submit"; payload := []; error := ∅; value := None |}.

Definition world (s : Submission VerifyValue) : World :=
  {| users := [bob; alice]; heap := {[ 1%positive := s ]} |}.

(** A request without cookies. *)
Definition args : VerifyFunctionArgs :=
  {| request := {| req_headers := ∅; req_formData := [] |};
     submission := 1%positive |}.

(** A request whose cookie carries a session with an unrelated key. *)
Definition argsWithSession : VerifyFunctionArgs :=
  {| request :=
       {| req_headers :=
            {[ "cookie" := Codec.encodeEntries [("theme", "dark")] ]};
          req_formData := [] |};
     submission := 1%positive |}.

Definition form (entries : list (string * string)) : Request :=
  {| req_headers := ∅; req_formData := entries |}.

(** The handler on a verified submission for [t], with the unsigned
    codec as session storage. *)
Definition run (args : VerifyFunctionArgs) (t : string)
  : Completion Response * World * list Effect :=
  handleVerification (SS := Codec.storage) args (world (verified t)).

End Scenario.

(** ** The form schema

    [ResetPasswordSchema] is built from two zod combinators. A zod
    schema returns a value that is valid, a value that is dirty (it
    was read, and issues were reported on it), or no value at all
    (the parse was aborted); [safeParse] succeeds on a valid value
    only. *)
Module Zod.

Record Issue : Type := mkIssue {
  issue_path : list string;
  issue_message : string;
}.

Inductive ParseReturn (A : Type) : Type :=
| OK (a : A)
| DIRTY (a : A) (issues : list Issue)
| INVALID (issues : list Issue).
Arguments OK {A} a.
Arguments DIRTY {A} a issues.
Arguments INVALID {A} issues.

Definition issuesOf {A} (r : ParseReturn A) : list Issue :=
  match r with
  | OK _ => []
  | DIRTY _ issues | INVALID issues => issues
  end.

(** An issue of the schema of property [k] is reported under [k]. *)
Definition under (k : string) (issues : list Issue) : list Issue :=
  map (fun i => {| issue_path := k :: issue_path i;
                   issue_message := issue_message i |}) issues.

(** [z.object({ k1: s1, k2: s2 })] on the payload of a form: both
    properties are parsed, whatever the first one gave; the object is
    aborted when a property is, dirty when one is dirty. *)
Definition object2 {A B C} (k1 : string) (s1 : option string -> ParseReturn A)
  (k2 : string) (s2 : option string -> ParseReturn B) (mk : A -> B -> C)
  (data : list (string * string)) : ParseReturn C :=
  let r1 := s1 (assoc k1 data) in
  let r2 := s2 (assoc k2 data) in
  let issues := under k1 (issuesOf r1) ++ under k2 (issuesOf r2) in
  match r1, r2 with
  | INVALID _, _ => INVALID issues
  | _, INVALID _ => INVALID issues
  | OK a, OK b => OK (mk a b)
  | OK a, DIRTY b _ => DIRTY (mk a b) issues
  | DIRTY a _, OK b => DIRTY (mk a b) issues
  | DIRTY a _, DIRTY b _ => DIRTY (mk a b) issues
  end.

(** [schema.refine(check, { message, path })]: the check runs on a
    valid and on a dirty value, not after an aborted parse; a failed
    check reports one issue and leaves the value dirty. *)
Definition refine {I A} (schema : I -> ParseReturn A) (check : A -> bool)
  (message : string) (path : list string) (data : I) : ParseReturn A :=
  let issue := {| issue_path := path; issue_message := message |} in
  match schema data with
  | INVALID issues => INVALID issues
  | OK a => if check a then OK a else DIRTY a [issue]
  | DIRTY a issues =>
      if check a then DIRTY a issues else DIRTY a (issues ++ [issue])
  end.

(** [schema.safeParse(data)]: the data, or the issues. *)
Definition safeParse {A} (r : ParseReturn A) : A + list Issue :=
  match r with
  | OK a => inl a
  | DIRTY _ issues | INVALID issues => inr issues
  end.

End Zod.

Section ResetPasswordSchema.

(** [passwordSchema] of [~/utils/user-validation.ts], on the value of
    a form field, which is [undefined] when the field is missing. *)
Variable passwordSchema : option string -> Zod.ParseReturn string.

Definition ResetPasswordSchema
  : list (string * string) -> Zod.ParseReturn ResetPasswordValue :=
  Zod.refine
    (Zod.object2 "password" passwordSchema
                 "confirmPassword" passwordSchema
                 mkResetPasswordValue)
    (fun v => bool_decide (password v = confirmPassword v))
    "The passwords did not match"
    ["confirmPassword"].

End ResetPasswordSchema.

(** ** The submit button of the page

    The two expressions [ResetPasswordPage] passes to [StatusButton],
    over the navigation of [useNavigation], the form action of
    [useFormAction] and the data of [useActionData] (the body of the
    last response of [action], if any). *)

Inductive NavigationState : Type :=
| NavIdle
| NavLoading
| NavSubmitting.

Record Navigation : Type := mkNavigation {
  nav_state : NavigationState;
  nav_formAction : option string;
  nav_formMethod : option string;
}.

(** [o ?? d] *)
Definition nullish (o : option Json) (d : Json) : Json :=
  match o with
  | None | Some JNull => d
  | Some j => j
  end.

(** [navigation.state === 'submitting' &&
     navigation.formAction === formAction &&
     navigation.formMethod === 'POST'] *)
Definition submittingHere (navigation : Navigation) (formAction : string) : bool :=
  match nav_state navigation with
  | NavSubmitting =>
      bool_decide (nav_formAction navigation = Some formAction)
      && bool_decide (nav_formMethod navigation = Some "POST")
  | _ => false
  end.

(** The [status] of the button. *)
Definition statusButton_status (navigation : Navigation) (formAction : string)
  (actionData : option Json) : Json :=
  if submittingHere navigation formAction then JString "pending"
  else nullish (actionData ≫= jget "status") (JString "idle").

(** The [disabled] of the button: [navigation.state !== 'idle']. *)
Definition statusButton_disabled (navigation : Navigation) : bool :=
  match nav_state navigation with
  | NavIdle => false
  | _ => true
  end.

(** ** Further scenarios *)
Module Scenario2.



(** A store without accounts. *)
Definition empty (s : Submission VerifyValue) : World :=
  {| users := []; heap := {[ 1%positive := s ]} |}.

(** A submission that already carries a form error. *)
Definition flagged (t : string) : Submission VerifyValue :=
  {| intent := "submit";
     payload := [("target", t)];
     error := {[ "" := ErrStrings ["Too many attempts"] ]};
     value := Some {| target := t |} |}.

(** A password schema: required, 6 to 100 characters. *)
Definition passwordSchema (x : option string) : Zod.ParseReturn string :=
  match x with
  | None => Zod.INVALID [Zod.mkIssue [] "Password is required"]
  | Some p =>
      match FormParser.lengthSchema p with
      | [] => Zod.OK p
      | l => Zod.DIRTY p (map (Zod.mkIssue []) l)
      end
  end.

Definition submittingPost : Navigation :=
  {| nav_state := NavSubmitting;
     nav_formAction := Some "/reset-password";
     nav_formMethod := Some "POST" |}.

Definition idleNavigation : Navigation :=
  {| nav_state := NavIdle; nav_formAction := None; nav_formMethod := None |}.

Definition parse : list (string * string) -> Submission ResetPasswordValue :=
  FormParser.parse FormParser.lengthSchema.

(** A submit whose two passwords differ, and its response. *)
Definition request : Request :=
  Scenario.form [("password", "hunter22"); ("confirmPassword", "hunter23")].

Definition w : World := Scenario.world Scenario.unvalidated.

Definition resp : Response :=
  json (JObject [("status", JString "error");
                 ("submission", to_json (parse (req_formData request)))])
       (Some 400%Z).

End Scenario2.

(** * Properties *)

(** ** Association lists and finite maps *)

Lemma assoc_list_to_map {A} (k : string) (l : list (string * A)) :
  (list_to_map l : gmap string A) !! k = assoc k l.
Proof.
  induction l as [|[k' v] l IH]; simpl.
  - apply lookup_empty.
  - rewrite lookup_insert. destruct (decide (k' = k)); [done | exact IH].
Qed.

Lemma assoc_map_to_list {A} (k : string) (m : gmap string A) :
  assoc k (map_to_list m) = m !! k.
Proof. by rewrite <- assoc_list_to_map, list_to_map_to_list. Qed.

(** ** The account lookup *)

Lemma where_email_or_username_spec t u :
  where_email_or_username t u = true <-> email u = t \/ username u = t.
Proof.
  unfold where_email_or_username.
  rewrite orb_true_iff, !bool_decide_eq_true. tauto.
Qed.

Lemma find_unresolved t (l : list User) :
  (forall u, u ∈ l -> email u <> t /\ username u <> t) ->
  find (where_email_or_username t) l = None.
Proof.
  intros Hno. induction l as [|a l IH]; simpl; [done|].
  destruct (where_email_or_username t a) eqn:E.
  - apply where_email_or_username_spec in E.
    destruct (Hno a) as [? ?]; [left | tauto].
  - apply IH. intros u Hu. apply Hno. by right.
Qed.

Lemma find_resolved t (l : list User) u :
  find (where_email_or_username t) l = Some u ->
  u ∈ l /\ (email u = t \/ username u = t).
Proof.
  intros Hf. apply find_some in Hf as [Hin Hw].
  split; [by apply list_elem_of_In | by apply where_email_or_username_spec].
Qed.

Lemma find_is_Some t (l : list User) u :
  u ∈ l -> email u = t \/ username u = t ->
  is_Some (find (where_email_or_username t) l).
Proof.
  intros Hin Hm. destruct (find _ l) eqn:E; [by eexists|].
  exfalso. apply list_elem_of_In in Hin.
  pose proof (find_none _ _ E u Hin) as Hn.
  apply where_email_or_username_spec in Hm. congruence.
Qed.

(** With exactly one matching account, that account is the one found. *)
Lemma find_unique t (l : list User) u :
  filter (fun a => email a = t \/ username a = t) l = [u] ->
  find (where_email_or_username t) l = Some u.
Proof.
  induction l as [|a l IH]; simpl; [done|].
  rewrite filter_cons. destruct (decide (email a = t \/ username a = t)) as [Hm|Hm].
  - intros [= -> _]. apply where_email_or_username_spec in Hm. by rewrite Hm.
  - intros Hf. destruct (where_email_or_username t a) eqn:E.
    + apply where_email_or_username_spec in E. contradiction.
    + by apply IH.
Qed.

(** ** The three ways [handleVerification] runs *)

Section Runs.

Context {SS : SessionStorage}.

Lemma run_dangling args w :
  heap w !! submission args = None ->
  handleVerification args w = (Thrown "dangling reference", w, []).
Proof. intros Hd. unfold handleVerification, bind, deref. by rewrite Hd. Qed.

Lemma run_invariant args w s :
  heap w !! submission args = Some s ->
  value s = None ->
  handleVerification args w
  = (Thrown "submission.value should be defined by now", w, []).
Proof.
  intros Hs Hv. unfold handleVerification, bind, deref. rewrite Hs, Hv. done.
Qed.

Lemma run_not_found args w s v :
  heap w !! submission args = Some s ->
  value s = Some v ->
  find (where_email_or_username (target v)) (users w) = None ->
  handleVerification args w
  = (Normal (json (JObject [("status", JString "error");
                            ("submission",
                             to_json (set_error "code" "Invalid code" s))])
                  (Some 400%Z)),
     {| users := users w;
        heap := <[submission args := set_error "code" "Invalid code" s]> (heap w) |},
     [DbFindFirst (target v)]).
Proof.
  intros Hs Hv Hf.
  unfold handleVerification, bind, deref, prisma_user_findFirst, bind, emit,
    update, invariant, ret.
  rewrite Hs, Hv. simpl. rewrite Hf. simpl. rewrite Hs. simpl.
  by rewrite lookup_insert_eq.
Qed.

Lemma run_found args w s v u :
  heap w !! submission args = Some s ->
  value s = Some v ->
  find (where_email_or_username (target v)) (users w) = Some u ->
  let session :=
    <[resetPasswordUsernameSessionKey := username u]>
      (getSession (headers_get "cookie" (request args))) in
  handleVerification args w
  = (Normal (redirect "/reset-password"
               [("set-cookie", commitSession session)]),
     w,
     [DbFindFirst (target v);
      SessionLoaded (headers_get "cookie" (request args));
      SessionCommitted session (commitSession session)]).
Proof.
  intros Hs Hv Hf.
  unfold handleVerification, bind, deref, prisma_user_findFirst, bind, emit,
    verifySessionStorage_getSession, verifySessionStorage_commitSession,
    bind, emit, invariant, ret.
  rewrite Hs, Hv. simpl. rewrite Hf. done.
Qed.

End Runs.

(** ** The unsigned codec round-trips *)

Module CodecFacts.
Import Codec.

Lemma decodeString_encodeString s r :
  decodeString (encodeString s +:+ r) = Some (s, r).
Proof. induction s as [|c s IH]; simpl; [done | by rewrite IH]. Qed.

Lemma decodeEntries_encodeEntries l :
  forall fuel, (length l < fuel)%nat ->
  decodeEntries fuel (encodeEntries l) = Some l.
Proof.
  induction l as [|[k v] l IH]; intros [|fuel] Hlt; simpl in *; try lia; [done|].
  rewrite decodeString_encodeString, decodeString_encodeString.
  rewrite IH by lia. done.
Qed.

Lemma length_append (a b : string) :
  String.length (a +:+ b) = (String.length a + String.length b)%nat.
Proof. induction a as [|x a IH]; simpl; [done | by f_equal]. Qed.

Lemma encodeEntries_length l :
  (length l < String.length (encodeEntries l))%nat.
Proof.
  induction l as [|[k v] l IH]; simpl; [lia|].
  rewrite !length_append. lia.
Qed.

Lemma parseCookie_encodeEntries l :
  parseCookie (encodeEntries l) = list_to_map l.
Proof.
  unfold parseCookie.
  by rewrite decodeEntries_encodeEntries by apply encodeEntries_length.
Qed.

Lemma round_trip : @SessionRoundTrip storage.
Proof.
  intros s. simpl. rewrite parseCookie_encodeEntries.
  apply list_to_map_to_list.
Qed.

End CodecFacts.

(** ** The verification handler *)

Lemma jpath_submission_error {V} `{ToJson V} (s : Submission V) st k :
  jpath ["submission"; "error"; k]
    (JObject [("status", st); ("submission", to_json s)])
  = to_json <$> (error s !! k).
Proof.
  cbn. repeat (case_decide; try done).
  unfold to_json at 1, Submission_to_json. cbn.
  repeat (case_decide; try done).
  unfold jget. rewrite assoc_map_to_list, lookup_fmap.
  by destruct (error s !! k).
Qed.

Section Handler.

Context {SS : SessionStorage}.

(** C1. When the target of a verified submission matches exactly one
    account of the store, by email or by username, the handler
    returns a redirect to [/reset-password] with a [set-cookie]
    header, and the committed session parses to one that binds
    [resetPasswordUsername] to the username of that account. *)
Theorem handleVerification_success {RT : SessionRoundTrip} args w s v u :
  heap w !! submission args = Some s ->
  value s = Some v ->
  filter (fun a => email a = target v \/ username a = target v) (users w) = [u] ->
  exists resp cookie,
    (handleVerification args w).1.1 = Normal resp /\
    status resp = 302%Z /\
    header "location" resp = Some "/reset-password" /\
    header "set-cookie" resp = Some cookie /\
    getSession (Some cookie) !! "resetPasswordUsername" = Some (username u).
Proof.
  intros Hs Hv Hone. apply find_unique in Hone.
  rewrite (run_found _ _ _ _ _ Hs Hv Hone). simpl.
  eexists _, _. repeat split.
  rewrite get_commit. apply lookup_insert_eq.
Qed.

(** C2. When the target of a verified submission matches no account,
    neither by email nor by username, the handler returns status 400
    with body status [error] and the generic error code
    [Invalid code], and the response has no [set-cookie] header. *)
Theorem handleVerification_not_found args w s v :
  heap w !! submission args = Some s ->
  value s = Some v ->
  (forall u, u ∈ users w -> email u <> target v /\ username u <> target v) ->
  exists resp data,
    (handleVerification args w).1.1 = Normal resp /\
    status resp = 400%Z /\
    body resp = Some data /\
    jget "status" data = Some (JString "error") /\
    jpath ["submission"; "error"; "code"] data = Some (JString "Invalid code") /\
    header "set-cookie" resp = None.
Proof.
  intros Hs Hv Hno. apply find_unresolved in Hno.
  rewrite (run_not_found _ _ _ _ Hs Hv Hno). cbn [fst].
  eexists _, _. split; [reflexivity|]. split; [reflexivity|].
  split; [reflexivity|]. split; [reflexivity|]. split; [|reflexivity].
  rewrite jpath_submission_error. cbn [error set_error].
  by rewrite lookup_insert_eq.
Qed.

End Handler.

(** Scenario A: the target is the email of [alice]. *)
Lemma handleVerification_success_witness :
  let w := Scenario.world (Scenario.verified "alice@example.com") in
  let v := {| target := "alice@example.com" |} in
  @SessionRoundTrip Codec.storage /\
  heap w !! submission Scenario.args
    = Some (Scenario.verified "alice@example.com") /\
  value (Scenario.verified "alice@example.com") = Some v /\
  filter (fun a => email a = target v \/ username a = target v) (users w)
    = [Scenario.alice] /\
  exists resp cookie,
    (handleVerification (SS := Codec.storage) Scenario.args w).1.1 = Normal resp /\
    status resp = 302%Z /\
    header "location" resp = Some "/reset-password" /\
    header "set-cookie" resp = Some cookie /\
    @getSession Codec.storage (Some cookie) !! "resetPasswordUsername"
      = Some (username Scenario.alice).
Proof.
  intros w v.
  assert (Hs : heap w !! submission Scenario.args
               = Some (Scenario.verified "alice@example.com"))
    by (vm_compute; reflexivity).
  assert (Hv : value (Scenario.verified "alice@example.com") = Some v)
    by reflexivity.
  assert (Hone : filter (fun a => email a = target v \/ username a = target v)
                   (users w) = [Scenario.alice])
    by (vm_compute; reflexivity).
  split; [exact CodecFacts.round_trip|].
  split; [exact Hs|]. split; [exact Hv|]. split; [exact Hone|].
  exact (handleVerification_success (SS := Codec.storage)
           (RT := CodecFacts.round_trip)
           Scenario.args w _ v Scenario.alice Hs Hv Hone).
Defined.

(** Scenario B: the target belongs to nobody. *)
Lemma handleVerification_not_found_witness :
  let w := Scenario.world (Scenario.verified "ghost@example.com") in
  let v := {| target := "ghost@example.com" |} in
  heap w !! submission Scenario.args
    = Some (Scenario.verified "ghost@example.com") /\
  value (Scenario.verified "ghost@example.com") = Some v /\
  (forall u, u ∈ users w -> email u <> target v /\ username u <> target v) /\
  exists resp data,
    (handleVerification (SS := Codec.storage) Scenario.args w).1.1 = Normal resp /\
    status resp = 400%Z /\
    body resp = Some data /\
    jget "status" data = Some (JString "error") /\
    jpath ["submission"; "error"; "code"] data = Some (JString "Invalid code") /\
    header "set-cookie" resp = None.
Proof.
  intros w v.
  assert (Hs : heap w !! submission Scenario.args
               = Some (Scenario.verified "ghost@example.com"))
    by (vm_compute; reflexivity).
  assert (Hv : value (Scenario.verified "ghost@example.com") = Some v)
    by reflexivity.
  assert (Hno : forall u, u ∈ users w ->
                  email u <> target v /\ username u <> target v).
  { intros u Hu. apply Forall_forall with (x := u) (l := users w); [|exact Hu].
    repeat constructor; discriminate. }
  split; [exact Hs|]. split; [exact Hv|]. split; [exact Hno|].
  exact (handleVerification_not_found (SS := Codec.storage)
           Scenario.args w _ v Hs Hv Hno).
Defined.

Section HandlerInvariants.

Context {SS : SessionStorage}.

Lemma unresolved_find args w s v :
  heap w !! submission args = Some s ->
  value s = Some v ->
  ~ resolved args w ->
  find (where_email_or_username (target v)) (users w) = None.
Proof.
  intros Hs Hv Hnr. apply find_unresolved. intros u Hu.
  split; intros Hm; apply Hnr; exists s, v, u; tauto.
Qed.

Lemma resolved_find args w s v :
  heap w !! submission args = Some s ->
  value s = Some v ->
  resolved args w ->
  is_Some (find (where_email_or_username (target v)) (users w)).
Proof.
  intros Hs Hv (s' & v' & u & Hs' & Hv' & Hin & Hm).
  rewrite Hs in Hs'. injection Hs' as <-.
  rewrite Hv in Hv'. injection Hv' as <-.
  by apply find_is_Some with u.
Qed.

Lemma json_sets_no_cookie data st : ~ cookieSet (Normal (json data st)).
Proof. intros (resp & cookie & [= <-] & Hc). discriminate Hc. Qed.

Lemma thrown_sets_no_cookie msg : ~ cookieSet (Thrown msg).
Proof. intros (resp & cookie & Hc & _). discriminate Hc. Qed.

Lemma no_session_entry_without_commit evs :
  Forall (fun e => isSessionEffect e = false) evs -> ~ sessionEntrySet evs.
Proof.
  intros Hall (data & cookie & name & Hin & _).
  rewrite Forall_forall in Hall. by apply Hall in Hin.
Qed.

(** C3. In every run of the handler, a session with the
    [resetPasswordUsername] entry is committed exactly when the target
    resolved to an account, a cookie is set exactly then, and a run
    on an unresolved target makes no call to the session storage. *)
Theorem session_iff_resolved args w :
  let r := handleVerification args w in
  (sessionEntrySet r.2 <-> resolved args w) /\
  (cookieSet r.1.1 <-> resolved args w) /\
  (~ resolved args w -> Forall (fun e => isSessionEffect e = false) r.2).
Proof.
  assert (Hgen : forall c evs,
             ~ resolved args w ->
             Forall (fun e => isSessionEffect e = false) evs ->
             ~ cookieSet c ->
             (sessionEntrySet evs <-> resolved args w) /\
             (cookieSet c <-> resolved args w) /\
             (~ resolved args w -> Forall (fun e => isSessionEffect e = false) evs)).
  { intros c evs Hnr Hall Hnc.
    pose proof (no_session_entry_without_commit _ Hall). tauto. }
  cbv zeta.
  destruct (heap w !! submission args) as [s|] eqn:Hs.
  2:{ rewrite (run_dangling _ _ Hs). apply Hgen.
      - intros (s' & v' & u & Hs' & _). congruence.
      - constructor.
      - apply thrown_sets_no_cookie. }
  destruct (value s) as [v|] eqn:Hv.
  2:{ rewrite (run_invariant _ _ _ Hs Hv). apply Hgen.
      - intros (s' & v' & u & Hs' & Hv' & _). congruence.
      - constructor.
      - apply thrown_sets_no_cookie. }
  destruct (find (where_email_or_username (target v)) (users w)) as [u|] eqn:Hf.
  - assert (Hr : resolved args w).
    { apply find_resolved in Hf as [Hin Hm]. by exists s, v, u. }
    rewrite (run_found _ _ _ _ _ Hs Hv Hf). cbn [fst snd].
    split; [|split]; [split; [done|] | split; [done|] | done]; intros _.
    + eexists _, _, (username u). split.
      * do 2 apply list_elem_of_further. apply list_elem_of_here.
      * apply lookup_insert_eq.
    + eexists _, _. split; reflexivity.
  - assert (Hnr : ~ resolved args w).
    { intros Hr. apply (resolved_find _ _ _ _ Hs Hv) in Hr as [u Hu].
      congruence. }
    rewrite (run_not_found _ _ _ _ Hs Hv Hf). apply Hgen.
    + exact Hnr.
    + by repeat constructor.
    + apply json_sets_no_cookie.
Qed.

(** C4. When the value of the submission is absent, the handler stops
    at once with the assertion failure: nothing is looked up, no
    session storage call is made, the world is untouched, and the
    call does not return a response. *)
Theorem handleVerification_value_absent args w s :
  heap w !! submission args = Some s ->
  value s = None ->
  handleVerification args w
  = (Thrown "submission.value should be defined by now", w, [])
  /\ forall resp, (handleVerification args w).1.1 <> Normal resp.
Proof.
  intros Hs Hv. rewrite (run_invariant _ _ _ Hs Hv). split; [done|].
  intros resp. discriminate.
Qed.

End HandlerInvariants.

Section HandlerFrame.

Context {SS : SessionStorage}.

Lemma set_error_twice {V} k msg (s : Submission V) :
  set_error k msg (set_error k msg s) = set_error k msg s.
Proof. unfold set_error. cbn. by rewrite insert_insert_eq. Qed.

(** C5. Frame of a run on a verified submission. The account store is
    never changed. On an unresolved target the only change is the
    error field of the submission object, no call to the session
    storage is made and no cookie is set. On a resolved target the
    world is unchanged and the response carries exactly one
    [set-cookie] header. *)
Theorem handleVerification_frame args w s v :
  heap w !! submission args = Some s ->
  value s = Some v ->
  let r := handleVerification args w in
  users r.1.2 = users w /\
  (~ resolved args w ->
     (exists s',
        heap r.1.2 = <[submission args := s']> (heap w) /\
        intent s' = intent s /\ payload s' = payload s /\ value s' = value s /\
        error s' = <["code" := ErrString "Invalid code"]> (error s)) /\
     Forall (fun e => isSessionEffect e = false) r.2 /\
     ~ cookieSet r.1.1) /\
  (resolved args w ->
     r.1.2 = w /\
     exists resp,
       r.1.1 = Normal resp /\ headerCount "set-cookie" resp = 1%nat).
Proof.
  intros Hs Hv. cbv zeta.
  destruct (find (where_email_or_username (target v)) (users w)) as [u|] eqn:Hf.
  - rewrite (run_found _ _ _ _ _ Hs Hv Hf). cbn [fst snd].
    split; [done|]. split.
    + intros Hnr. apply (unresolved_find _ _ _ _ Hs Hv) in Hnr. congruence.
    + intros _. split; [done|]. eexists. split; reflexivity.
  - rewrite (run_not_found _ _ _ _ Hs Hv Hf). cbn [fst snd users heap].
    split; [done|]. split.
    + intros _. split; [|split].
      * by exists (set_error "code" "Invalid code" s).
      * by repeat constructor.
      * apply json_sets_no_cookie.
    + intros Hr. apply (resolved_find _ _ _ _ Hs Hv) in Hr as [u Hu]. congruence.
Qed.

(** C6. On the success path the committed session is the incoming
    session with the single key [resetPasswordUsername] set: every
    other key of the session parsed from the request cookie is bound
    to the same value in the session parsed from the new cookie. *)
Theorem session_isolation {RT : SessionRoundTrip} args w s v :
  heap w !! submission args = Some s ->
  value s = Some v ->
  resolved args w ->
  let incoming := getSession (headers_get "cookie" (request args)) in
  exists resp cookie name,
    (handleVerification args w).1.1 = Normal resp /\
    header "set-cookie" resp = Some cookie /\
    getSession (Some cookie) = <["resetPasswordUsername" := name]> incoming /\
    forall k x,
      k <> "resetPasswordUsername" ->
      incoming !! k = Some x ->
      getSession (Some cookie) !! k = Some x.
Proof.
  intros Hs Hv Hr. cbv zeta.
  apply (resolved_find _ _ _ _ Hs Hv) in Hr as [u Hf].
  rewrite (run_found _ _ _ _ _ Hs Hv Hf). cbn [fst].
  eexists _, _, (username u). split; [reflexivity|]. split; [reflexivity|].
  rewrite get_commit. split; [reflexivity|].
  intros k x Hk Hin. unfold resetPasswordUsernameSessionKey.
  by rewrite lookup_insert_ne.
Qed.

(** C7. Calling the handler a second time with the same unresolvable
    target, on the world the first call left, returns the very same
    response as the first call: status 400 with the error code
    [Invalid code]; and the second call leaves the world as it
    found it. *)
Theorem handleVerification_error_idempotent args w s v :
  heap w !! submission args = Some s ->
  value s = Some v ->
  (forall u, u ∈ users w -> email u <> target v /\ username u <> target v) ->
  let r1 := handleVerification args w in
  let r2 := handleVerification args r1.1.2 in
  exists resp data,
    r1.1.1 = Normal resp /\
    r2.1.1 = Normal resp /\
    status resp = 400%Z /\
    body resp = Some data /\
    jpath ["submission"; "error"; "code"] data = Some (JString "Invalid code") /\
    r2.1.2 = r1.1.2 /\
    users r1.1.2 = users w.
Proof.
  intros Hs Hv Hno. cbv zeta. apply find_unresolved in Hno.
  rewrite (run_not_found _ _ _ _ Hs Hv Hno). cbn [fst snd].
  set (s1 := set_error "code" "Invalid code" s).
  set (w1 := {| users := users w; heap := <[submission args := s1]> (heap w) |}).
  assert (Hs1 : heap w1 !! submission args = Some s1) by apply lookup_insert_eq.
  assert (Hv1 : value s1 = Some v) by exact Hv.
  assert (Hno1 : find (where_email_or_username (target v)) (users w1) = None)
    by exact Hno.
  rewrite (run_not_found _ _ _ _ Hs1 Hv1 Hno1). cbn [fst snd].
  replace (set_error "code" "Invalid code" s1) with s1
    by (symmetry; apply set_error_twice).
  eexists _, _. split; [reflexivity|]. split; [reflexivity|].
  split; [reflexivity|]. split; [reflexivity|]. split; [|split; [|done]].
  - rewrite jpath_submission_error. unfold s1. cbn [error set_error].
    by rewrite lookup_insert_eq.
  - unfold w1. cbn [users heap]. by rewrite insert_insert_eq.
Qed.

End HandlerFrame.

(** ** The loader and the action *)

(** C9. The loader takes neither the request nor the session: in
    every world it returns the placeholder [get this from the session]
    as [resetPasswordUsername], with status 200, calls no collaborator
    and changes nothing. *)
Theorem loader_placeholder (w : World) :
  exists resp data,
    loader w = (Normal resp, w, []) /\
    status resp = 200%Z /\
    body resp = Some data /\
    jget "resetPasswordUsername" data
    = Some (JString "get this from the session").
Proof. eexists _, _. repeat split. Qed.

Section Action.

Variable parse : list (string * string) -> Submission ResetPasswordValue.

Lemma truthy_password_spec (s : Submission ResetPasswordValue) :
  truthy_password s = true <-> exists v, value s = Some v /\ password v <> "".
Proof.
  unfold truthy_password. destruct (value s) as [v|].
  - rewrite negb_true_iff, bool_decide_eq_false. split.
    + intros Hp. by exists v.
    + by intros (v' & [= <-] & Hp).
  - split; [done | by intros (v & Hv & _)].
Qed.

(** C8. A submission that passes validation with intent [submit] and
    a non-empty password makes the action throw
    [This has not yet been implemented]: no response is returned,
    no collaborator is called and the world is unchanged. *)
Theorem action_not_implemented (request : Request) (w : World) v :
  intent (parse (req_formData request)) = "submit" ->
  value (parse (req_formData request)) = Some v ->
  password v <> "" ->
  action parse request w = (Thrown "This has not yet been implemented", w, []).
Proof.
  intros Hi Hv Hp. unfold action.
  rewrite bool_decide_eq_true_2 by exact Hi. cbn [negb].
  assert (Ht : truthy_password (parse (req_formData request)) = true)
    by (apply truthy_password_spec; eauto).
  by rewrite Ht.
Qed.

(** C10. The action throws only for intent [submit] with a non-empty
    password. Any other intent gives a 200 response with status
    [idle]; intent [submit] without a value, or with an empty
    password, gives a 400 response with status [error]. Neither
    case throws, calls a collaborator or changes the world. *)
Theorem action_guards (request : Request) (w : World) :
  let submission := parse (req_formData request) in
  (intent submission <> "submit" ->
   exists resp data,
     action parse request w = (Normal resp, w, []) /\
     status resp = 200%Z /\ body resp = Some data /\
     jget "status" data = Some (JString "idle")) /\
  (intent submission = "submit" ->
   (value submission = None \/
    exists v, value submission = Some v /\ password v = "") ->
   exists resp data,
     action parse request w = (Normal resp, w, []) /\
     status resp = 400%Z /\ body resp = Some data /\
     jget "status" data = Some (JString "error")) /\
  (forall msg,
     (action parse request w).1.1 = Thrown msg ->
     intent submission = "submit" /\
     exists v, value submission = Some v /\ password v <> "").
Proof.
  intros sub. unfold action. fold sub. split; [|split].
  - intros Hi. rewrite bool_decide_eq_false_2 by exact Hi. cbn [negb].
    eexists _, _. repeat split.
  - intros Hi Hp. rewrite bool_decide_eq_true_2 by exact Hi. cbn [negb].
    assert (Ht : truthy_password sub = false).
    { destruct (truthy_password sub) eqn:E; [|done].
      apply truthy_password_spec in E as (v & Hv & Hne).
      destruct Hp as [Hn | (v' & Hv' & He)]; congruence. }
    rewrite Ht. cbn [negb]. eexists _, _. repeat split.
  - intros msg. destruct (bool_decide (intent sub = "submit")) eqn:Hi;
      cbn [negb]; [|discriminate].
    destruct (truthy_password sub) eqn:Ht; cbn [negb]; [|discriminate].
    intros _. split.
    + by apply bool_decide_eq_true in Hi.
    + by apply truthy_password_spec.
Qed.

End Action.

(** ** The theorems on the scenarios *)

(** Scenario C run through the invariant: the target is a username. *)
Lemma session_iff_resolved_witness :
  let w := Scenario.world (Scenario.verified "alice") in
  let r := handleVerification (SS := Codec.storage) Scenario.args w in
  (sessionEntrySet r.2 <-> resolved Scenario.args w) /\
  (cookieSet r.1.1 <-> resolved Scenario.args w) /\
  (~ resolved Scenario.args w ->
   Forall (fun e => isSessionEffect e = false) r.2).
Proof.
  exact (session_iff_resolved (SS := Codec.storage) Scenario.args
           (Scenario.world (Scenario.verified "alice"))).
Defined.

Lemma handleVerification_value_absent_witness :
  let w := Scenario.world Scenario.unvalidated in
  heap w !! submission Scenario.args = Some Scenario.unvalidated /\
  value Scenario.unvalidated = None /\
  handleVerification (SS := Codec.storage) Scenario.args w
  = (Thrown "submission.value should be defined by now", w, []) /\
  forall resp,
    (handleVerification (SS := Codec.storage) Scenario.args w).1.1
    <> Normal resp.
Proof.
  intros w.
  assert (Hs : heap w !! submission Scenario.args = Some Scenario.unvalidated)
    by (vm_compute; reflexivity).
  split; [exact Hs|]. split; [reflexivity|].
  exact (handleVerification_value_absent (SS := Codec.storage)
           Scenario.args w _ Hs eq_refl).
Defined.

Lemma handleVerification_frame_witness :
  let s := Scenario.verified "ghost@example.com" in
  let w := Scenario.world s in
  let r := handleVerification (SS := Codec.storage) Scenario.args w in
  heap w !! submission Scenario.args = Some s /\
  value s = Some {| target := "ghost@example.com" |} /\
  users r.1.2 = users w /\
  (~ resolved Scenario.args w ->
     (exists s',
        heap r.1.2 = <[submission Scenario.args := s']> (heap w) /\
        intent s' = intent s /\ payload s' = payload s /\ value s' = value s /\
        error s' = <["code" := ErrString "Invalid code"]> (error s)) /\
     Forall (fun e => isSessionEffect e = false) r.2 /\
     ~ cookieSet r.1.1) /\
  (resolved Scenario.args w ->
     r.1.2 = w /\
     exists resp,
       r.1.1 = Normal resp /\ headerCount "set-cookie" resp = 1%nat).
Proof.
  intros s w r.
  assert (Hs : heap w !! submission Scenario.args = Some s)
    by (vm_compute; reflexivity).
  split; [exact Hs|]. split; [reflexivity|].
  exact (handleVerification_frame (SS := Codec.storage)
           Scenario.args w s _ Hs eq_refl).
Defined.

Lemma alice_resolved t :
  t = "alice" \/ t = "alice@example.com" ->
  resolved Scenario.args (Scenario.world (Scenario.verified t)).
Proof.
  intros Ht. exists (Scenario.verified t), {| target := t |}, Scenario.alice.
  split; [by vm_compute|]. split; [done|]. split.
  - apply list_elem_of_further, list_elem_of_here.
  - cbn. destruct Ht as [-> | ->]; auto.
Qed.

Lemma session_isolation_witness :
  let s := Scenario.verified "alice" in
  let w := Scenario.world s in
  let args := Scenario.argsWithSession in
  let incoming :=
    @getSession Codec.storage (headers_get "cookie" (request args)) in
  @SessionRoundTrip Codec.storage /\
  heap w !! submission args = Some s /\
  value s = Some {| target := "alice" |} /\
  resolved args w /\
  exists resp cookie name,
    (handleVerification (SS := Codec.storage) args w).1.1 = Normal resp /\
    header "set-cookie" resp = Some cookie /\
    @getSession Codec.storage (Some cookie)
    = <["resetPasswordUsername" := name]> incoming /\
    forall k x,
      k <> "resetPasswordUsername" ->
      incoming !! k = Some x ->
      @getSession Codec.storage (Some cookie) !! k = Some x.
Proof.
  intros s w args incoming.
  assert (Hs : heap w !! submission args = Some s) by (vm_compute; reflexivity).
  assert (Hr : resolved args w) by (apply (alice_resolved "alice"); by left).
  split; [exact CodecFacts.round_trip|].
  split; [exact Hs|]. split; [reflexivity|]. split; [exact Hr|].
  exact (session_isolation (SS := Codec.storage) (RT := CodecFacts.round_trip)
           args w s _ Hs eq_refl Hr).
Defined.

Lemma handleVerification_error_idempotent_witness :
  let s := Scenario.verified "ghost@example.com" in
  let v := {| target := "ghost@example.com" |} in
  let w := Scenario.world s in
  let r1 := handleVerification (SS := Codec.storage) Scenario.args w in
  let r2 := handleVerification (SS := Codec.storage) Scenario.args r1.1.2 in
  heap w !! submission Scenario.args = Some s /\
  value s = Some v /\
  (forall u, u ∈ users w -> email u <> target v /\ username u <> target v) /\
  exists resp data,
    r1.1.1 = Normal resp /\
    r2.1.1 = Normal resp /\
    status resp = 400%Z /\
    body resp = Some data /\
    jpath ["submission"; "error"; "code"] data = Some (JString "Invalid code") /\
    r2.1.2 = r1.1.2 /\
    users r1.1.2 = users w.
Proof.
  intros s v w r1 r2.
  assert (Hs : heap w !! submission Scenario.args = Some s)
    by (vm_compute; reflexivity).
  assert (Hno : forall u, u ∈ users w ->
                  email u <> target v /\ username u <> target v).
  { intros u Hu. apply Forall_forall with (x := u) (l := users w); [|exact Hu].
    repeat constructor; discriminate. }
  split; [exact Hs|]. split; [reflexivity|]. split; [exact Hno|].
  exact (handleVerification_error_idempotent (SS := Codec.storage)
           Scenario.args w s v Hs eq_refl Hno).
Defined.

Lemma action_not_implemented_witness :
  let parse := FormParser.parse FormParser.lengthSchema in
  let request :=
    Scenario.form [("password", "hunter22"); ("confirmPassword", "hunter22")] in
  let v := {| password := "hunter22"; confirmPassword := "hunter22" |} in
  let w := Scenario.world Scenario.unvalidated in
  intent (parse (req_formData request)) = "submit" /\
  value (parse (req_formData request)) = Some v /\
  password v <> "" /\
  action parse request w
  = (Thrown "This has not yet been implemented", w, []).
Proof.
  intros parse request v w.
  assert (Hi : intent (parse (req_formData request)) = "submit")
    by (vm_compute; reflexivity).
  assert (Hv : value (parse (req_formData request)) = Some v)
    by (vm_compute; reflexivity).
  assert (Hp : password v <> "") by discriminate.
  split; [exact Hi|]. split; [exact Hv|]. split; [exact Hp|].
  exact (action_not_implemented parse request w v Hi Hv Hp).
Defined.

(** A validation request of one field, which is not a submit. *)
Lemma action_guards_witness :
  let parse := FormParser.parse FormParser.lengthSchema in
  let request :=
    Scenario.form [("__intent__", "validate/password"); ("password", "abc")] in
  let w := Scenario.world Scenario.unvalidated in
  let submission := parse (req_formData request) in
  intent submission <> "submit" /\
  (intent submission <> "submit" ->
   exists resp data,
     action parse request w = (Normal resp, w, []) /\
     status resp = 200%Z /\ body resp = Some data /\
     jget "status" data = Some (JString "idle")) /\
  (intent submission = "submit" ->
   (value submission = None \/
    exists v, value submission = Some v /\ password v = "") ->
   exists resp data,
     action parse request w = (Normal resp, w, []) /\
     status resp = 400%Z /\ body resp = Some data /\
     jget "status" data = Some (JString "error")) /\
  (forall msg,
     (action parse request w).1.1 = Thrown msg ->
     intent submission = "submit" /\
     exists v, value submission = Some v /\ password v <> "").
Proof.
  intros parse request w submission.
  split; [vm_compute; discriminate|].
  exact (action_guards parse request w).
Defined.

(** ** The scenarios, evaluated *)

Section Evaluated.

Import Scenario.

(** Scenario A: the cookie decodes to [{resetPasswordUsername: alice}]. *)
Example scenario_A :
  exists cookie,
    (run args "alice@example.com").1.1
    = Normal (redirect "/reset-password" [("set-cookie", cookie)]) /\
    @getSession Codec.storage (Some cookie)
    = {[ "resetPasswordUsername" := "alice" ]}.
Proof. eexists. split; [reflexivity | by vm_compute]. Qed.

(** Scenario B: status 400 and the generic code, in a store that has
    accounts. *)
Example scenario_B :
  exists resp data,
    (run args "ghost@example.com").1.1 = Normal resp /\
    status resp = 400%Z /\ body resp = Some data /\
    jget "status" data = Some (JString "error") /\
    jpath ["submission"; "error"; "code"] data = Some (JString "Invalid code").
Proof. eexists _, _. repeat split; by vm_compute. Qed.

(** Scenario C: the username gives the same outcome as the email. *)
Example scenario_C :
  (run args "alice").1.1 = (run args "alice@example.com").1.1.
Proof. by vm_compute. Qed.

(** A key of the incoming session survives the handler. *)
Example scenario_isolation :
  exists resp cookie,
    (run argsWithSession "alice").1.1 = Normal resp /\
    header "set-cookie" resp = Some cookie /\
    @getSession Codec.storage (Some cookie)
    = {[ "theme" := "dark"; "resetPasswordUsername" := "alice" ]}.
Proof.
  eexists _, _. split; [reflexivity|]. split; [reflexivity | by vm_compute].
Qed.

(** A submit whose passwords differ is answered with 400. *)
Example scenario_mismatch :
  exists resp,
    (action (FormParser.parse FormParser.lengthSchema)
       (Scenario.form [("password", "hunter22"); ("confirmPassword", "hunter23")])
       (Scenario.world Scenario.unvalidated)).1.1 = Normal resp /\
    status resp = 400%Z.
Proof. eexists. split; by vm_compute. Qed.

End Evaluated.

(** * Further properties of the route *)

(** ** The verification handler *)


Section HandlerMore.

Context {SS : SessionStorage}.

(** Every run is one of four. *)
Lemma run_cases args w :
  (heap w !! submission args = None /\
   handleVerification args w = (Thrown "dangling reference", w, []))
  \/ (exists s,
        heap w !! submission args = Some s /\ value s = None /\
        handleVerification args w
        = (Thrown "submission.value should be defined by now", w, []))
  \/ (exists s v,
        heap w !! submission args = Some s /\ value s = Some v /\
        find (where_email_or_username (target v)) (users w) = None /\
        handleVerification args w
        = (Normal (json (JObject [("status", JString "error");
                                  ("submission",
                                   to_json (set_error "code" "Invalid code" s))])
                        (Some 400%Z)),
           {| users := users w;
              heap := <[submission args := set_error "code" "Invalid code" s]>
                        (heap w) |},
           [DbFindFirst (target v)]))
  \/ (exists s v u,
        heap w !! submission args = Some s /\ value s = Some v /\
        find (where_email_or_username (target v)) (users w) = Some u /\
        handleVerification args w
        = (Normal (redirect "/reset-password"
                     [("set-cookie",
                       commitSession
                         (<[resetPasswordUsernameSessionKey := username u]>
                            (getSession (headers_get "cookie" (request args)))))]),
           w,
           [DbFindFirst (target v);
            SessionLoaded (headers_get "cookie" (request args));
            SessionCommitted
              (<[resetPasswordUsernameSessionKey := username u]>
                 (getSession (headers_get "cookie" (request args))))
              (commitSession
                 (<[resetPasswordUsernameSessionKey := username u]>
                    (getSession (headers_get "cookie" (request args)))))])).
Proof.
  destruct (heap w !! submission args) as [s|] eqn:Hs.
  2:{ left. split; [done | exact (run_dangling _ _ Hs)]. }
  destruct (value s) as [v|] eqn:Hv.
  2:{ right; left. exists s. split; [done|]. split; [done|].
      exact (run_invariant _ _ _ Hs Hv). }
  destruct (find (where_email_or_username (target v)) (users w)) as [u|] eqn:Hf.
  - do 3 right. exists s, v, u. repeat (split; [done|]).
    exact (run_found _ _ _ _ _ Hs Hv Hf).
  - do 2 right; left. exists s, v. repeat (split; [done|]).
    exact (run_not_found _ _ _ _ Hs Hv Hf).
Qed.

(** X1. Whatever the store holds, the username a run commits to the
    session is the username of an account of the store that matches
    the target of the submission by email or by username. *)
Theorem committed_username_matches args w data cookie name :
  SessionCommitted data cookie ∈ (handleVerification args w).2 ->
  data !! "resetPasswordUsername" = Some name ->
  exists s v u,
    heap w !! submission args = Some s /\ value s = Some v /\
    u ∈ users w /\ username u = name /\
    (email u = target v \/ username u = target v).
Proof.
  intros Hin Hname.
  destruct (run_cases args w)
    as [(_ & E) | [(s & _ & _ & E) | [(s & v & _ & _ & _ & E)
                                     | (s & v & u & Hs & Hv & Hf & E)]]];
    rewrite E in Hin; cbn [snd] in Hin.
  - by apply elem_of_nil in Hin.
  - by apply elem_of_nil in Hin.
  - apply list_elem_of_singleton in Hin. discriminate.
  - apply elem_of_cons in Hin as [Hin | Hin]; [discriminate|].
    apply elem_of_cons in Hin as [Hin | Hin]; [discriminate|].
    apply list_elem_of_singleton in Hin. injection Hin as -> _.
    unfold resetPasswordUsernameSessionKey in Hname.
    rewrite lookup_insert_eq in Hname. injection Hname as <-.
    apply find_resolved in Hf as [Hu Hm]. by exists s, v, u.
Qed.


(** X3. The response on the success path is a function of the
    username of the account and of the request cookie alone: two runs
    that resolve to accounts of the same username under the same
    cookie header return the same response, whether the target was an
    email or a username and whatever else the stores hold. *)
Theorem success_response_by_username args1 w1 s1 v1 u1 args2 w2 s2 v2 u2 :
  heap w1 !! submission args1 = Some s1 -> value s1 = Some v1 ->
  filter (fun a => email a = target v1 \/ username a = target v1) (users w1)
  = [u1] ->
  heap w2 !! submission args2 = Some s2 -> value s2 = Some v2 ->
  filter (fun a => email a = target v2 \/ username a = target v2) (users w2)
  = [u2] ->
  username u1 = username u2 ->
  headers_get "cookie" (request args1) = headers_get "cookie" (request args2) ->
  (handleVerification args1 w1).1.1 = (handleVerification args2 w2).1.1.
Proof.
  intros Hs1 Hv1 Hf1 Hs2 Hv2 Hf2 Hu Hc.
  apply find_unique in Hf1, Hf2.
  rewrite (run_found _ _ _ _ _ Hs1 Hv1 Hf1), (run_found _ _ _ _ _ Hs2 Hv2 Hf2).
  cbn [fst]. by rewrite Hu, Hc.
Qed.

(** X4. The response on the error path is a function of the
    submission alone: for the same submission, any two stores without
    a matching account and any two requests give the same response. *)
Theorem not_found_response_by_submission args1 w1 args2 w2 s v :
  heap w1 !! submission args1 = Some s ->
  heap w2 !! submission args2 = Some s ->
  value s = Some v ->
  (forall u, u ∈ users w1 -> email u <> target v /\ username u <> target v) ->
  (forall u, u ∈ users w2 -> email u <> target v /\ username u <> target v) ->
  (handleVerification args1 w1).1.1 = (handleVerification args2 w2).1.1.
Proof.
  intros Hs1 Hs2 Hv Hno1 Hno2.
  apply find_unresolved in Hno1, Hno2.
  by rewrite (run_not_found _ _ _ _ Hs1 Hv Hno1), (run_not_found _ _ _ _ Hs2 Hv Hno2).
Qed.

End HandlerMore.

Lemma jpath_submission_intent {V} `{ToJson V} (s : Submission V) st :
  jpath ["submission"; "intent"]
    (JObject [("status", st); ("submission", to_json s)])
  = Some (JString (intent s)).
Proof.
  cbn; repeat (case_decide; try done);
    unfold to_json at 1, Submission_to_json; cbn;
    by repeat (case_decide; try done).
Qed.


Lemma jpath_submission_target (s : Submission VerifyValue) v st :
  value s = Some v ->
  jpath ["submission"; "value"; "target"]
    (JObject [("status", st); ("submission", to_json s)])
  = Some (JString (target v)).
Proof.
  intros Hv. cbn. repeat (case_decide; try done).
  unfold to_json at 1, Submission_to_json. rewrite Hv. cbn.
  by repeat (case_decide; try done).
Qed.

Section HandlerBody.

Context {SS : SessionStorage}.

(** X5. The body of the 400 response is the submission as marked: it
    carries the intent and the target back, and every error entry the
    submission had under another key than [code] is still there. *)
Theorem error_body_echoes_submission args w s v :
  heap w !! submission args = Some s ->
  value s = Some v ->
  (forall u, u ∈ users w -> email u <> target v /\ username u <> target v) ->
  exists resp data,
    (handleVerification args w).1.1 = Normal resp /\
    body resp = Some data /\
    jpath ["submission"; "intent"] data = Some (JString (intent s)) /\
    jpath ["submission"; "value"; "target"] data = Some (JString (target v)) /\
    forall k, k <> "code" ->
      jpath ["submission"; "error"; k] data = to_json <$> (error s !! k).
Proof.
  intros Hs Hv Hno. apply find_unresolved in Hno.
  rewrite (run_not_found _ _ _ _ Hs Hv Hno). cbn [fst].
  eexists _, _. split; [reflexivity|]. split; [reflexivity|].
  split; [by rewrite jpath_submission_intent|].
  split; [by rewrite (jpath_submission_target _ v)|].
  intros k Hk. rewrite jpath_submission_error. cbn [error set_error].
  by rewrite lookup_insert_ne.
Qed.


End HandlerBody.

(** ** The action and the submit button *)

Section ActionMore.

Variable parse : list (string * string) -> Submission ResetPasswordValue.

(** A response of the action is one of two. *)
Lemma action_returns request w resp :
  (action parse request w).1.1 = Normal resp ->
  let submission := parse (req_formData request) in
  (intent submission <> "submit" /\
   resp = json (JObject [("status", JString "idle");
                         ("submission", to_json submission)]) None)
  \/ (intent submission = "submit" /\
      truthy_password submission = false /\
      resp = json (JObject [("status", JString "error");
                            ("submission", to_json submission)])
                  (Some 400%Z)).
Proof.
  unfold action. cbv zeta.
  destruct (bool_decide (intent (parse (req_formData request)) = "submit"))
    eqn:Hi; cbn [negb].
  - apply bool_decide_eq_true in Hi.
    destruct (truthy_password (parse (req_formData request))) eqn:Ht;
      cbn [negb]; [discriminate|].
    intros [= <-]. right. done.
  - apply bool_decide_eq_false in Hi. intros [= <-]. left. done.
Qed.

(** X7. What a response of the action tells: status 200 with body
    status [idle] is returned only for an intent other than [submit],
    and status 400 with body status [error] only for intent [submit]
    without a non-empty password; no other response is returned, so
    a [submit] is never answered with a 200. *)
Theorem action_response_sound request w resp :
  (action parse request w).1.1 = Normal resp ->
  exists data,
    body resp = Some data /\
    ((status resp = 200%Z /\ jget "status" data = Some (JString "idle") /\
      intent (parse (req_formData request)) <> "submit")
     \/ (status resp = 400%Z /\ jget "status" data = Some (JString "error") /\
         intent (parse (req_formData request)) = "submit" /\
         ~ exists v, value (parse (req_formData request)) = Some v /\
                     password v <> "")).
Proof.
  intros Hr. apply action_returns in Hr as [(Hi & ->) | (Hi & Ht & ->)];
    eexists; (split; [reflexivity|]).
  - left. by repeat split.
  - right. split; [done|]. split; [done|]. split; [done|].
    intros Hv. apply truthy_password_spec in Hv. congruence.
Qed.


Lemma submittingHere_spec navigation formAction :
  submittingHere navigation formAction = true <->
  nav_state navigation = NavSubmitting /\
  nav_formAction navigation = Some formAction /\
  nav_formMethod navigation = Some "POST".
Proof.
  unfold submittingHere. destruct (nav_state navigation).
  - split; [done | by intros [? _]].
  - split; [done | by intros [? _]].
  - rewrite andb_true_iff, !bool_decide_eq_true. tauto.
Qed.

(** X9. With the data of a response of the action, the button shows
    [pending] exactly while a POST to the form action of the page is
    being submitted, and whenever it shows [pending] it is disabled. *)
Theorem button_pending request w resp navigation formAction :
  (action parse request w).1.1 = Normal resp ->
  (statusButton_status navigation formAction (body resp) = JString "pending"
   <-> nav_state navigation = NavSubmitting /\
       nav_formAction navigation = Some formAction /\
       nav_formMethod navigation = Some "POST") /\
  (statusButton_status navigation formAction (body resp) = JString "pending"
   -> statusButton_disabled navigation = true).
Proof.
  intros Hr.
  assert (Hiff : statusButton_status navigation formAction (body resp)
                 = JString "pending"
                 <-> submittingHere navigation formAction = true).
  { unfold statusButton_status.
    destruct (submittingHere navigation formAction); [done|].
    apply action_returns in Hr as [(_ & ->) | (_ & _ & ->)]; by cbn. }
  split.
  - by rewrite Hiff, submittingHere_spec.
  - rewrite Hiff, submittingHere_spec. intros (Hst & _).
    unfold statusButton_disabled. by rewrite Hst.
Qed.

(** X10. Once the navigation is idle again after a response of the
    action, the button is enabled and shows [error] exactly when the
    response had status 400 and [idle] exactly when it had status
    200. *)
Theorem button_after_action request w resp navigation formAction :
  (action parse request w).1.1 = Normal resp ->
  nav_state navigation = NavIdle ->
  statusButton_disabled navigation = false /\
  (statusButton_status navigation formAction (body resp) = JString "error"
   <-> status resp = 400%Z) /\
  (statusButton_status navigation formAction (body resp) = JString "idle"
   <-> status resp = 200%Z).
Proof.
  intros Hr Hst. unfold statusButton_disabled, statusButton_status, submittingHere.
  rewrite Hst. split; [done|].
  apply action_returns in Hr as [(_ & ->) | (_ & _ & ->)]; by cbn.
Qed.

End ActionMore.

(** ** The form schema *)

Section SchemaFacts.

Import Zod.

Variable passwordSchema : option string -> ParseReturn string.

(** X11. The schema accepts a payload exactly when [passwordSchema]
    accepts both fields without an issue and the two are equal; the
    value then carries the two fields as they were read. *)
Theorem schema_accepts_iff payload v :
  safeParse (ResetPasswordSchema passwordSchema payload) = inl v <->
  passwordSchema (assoc "password" payload) = OK (password v) /\
  passwordSchema (assoc "confirmPassword" payload) = OK (confirmPassword v) /\
  password v = confirmPassword v.
Proof.
  unfold ResetPasswordSchema, refine, object2, safeParse.
  destruct (passwordSchema (assoc "password" payload)) as [p|p ip|ip];
    destruct (passwordSchema (assoc "confirmPassword" payload)) as [c|c ic|ic];
    cbn [password confirmPassword];
    try (case_bool_decide);
    try (split; [discriminate | intros (? & ? & ?); discriminate]).
  - split.
    + by intros [= <-].
    + destruct v as [p' c']. cbn. by intros ([= ->] & [= ->] & _).
  - split; [discriminate|]. destruct v as [p' c']. cbn.
    intros ([= ->] & [= ->] & ?). contradiction.
Qed.

(** X12. Two fields that [passwordSchema] accepts and that differ
    are refused with a single issue, [The passwords did not match],
    reported under [confirmPassword]. *)
Theorem schema_mismatch payload p c :
  passwordSchema (assoc "password" payload) = OK p ->
  passwordSchema (assoc "confirmPassword" payload) = OK c ->
  p <> c ->
  safeParse (ResetPasswordSchema passwordSchema payload)
  = inr [{| issue_path := ["confirmPassword"];
            issue_message := "The passwords did not match" |}].
Proof.
  intros Hp Hc Hne. unfold ResetPasswordSchema, refine, object2.
  rewrite Hp, Hc. cbn [password confirmPassword].
  by rewrite bool_decide_eq_false_2.
Qed.

(** X13. When [passwordSchema] aborts on a field, the comparison of
    the passwords is not run: the schema refuses the payload with
    the issues of the two fields, each under the name of its field,
    and nothing else. *)
Theorem schema_aborted payload :
  (exists i, passwordSchema (assoc "password" payload) = INVALID i) \/
  (exists i, passwordSchema (assoc "confirmPassword" payload) = INVALID i) ->
  safeParse (ResetPasswordSchema passwordSchema payload)
  = inr (under "password"
           (issuesOf (passwordSchema (assoc "password" payload)))
         ++ under "confirmPassword"
              (issuesOf (passwordSchema (assoc "confirmPassword" payload)))).
Proof.
  unfold ResetPasswordSchema, refine, object2.
  intros [[i Hi] | [i Hi]]; rewrite Hi.
  - done.
  - by destruct (passwordSchema (assoc "password" payload)).
Qed.

(** X14. When both fields were read and at least one is dirty, the
    comparison still runs: unequal passwords add the issue
    [The passwords did not match] after the issues of the fields. *)
Theorem schema_dirty_mismatch payload p ip c ic :
  passwordSchema (assoc "password" payload) = DIRTY p ip ->
  passwordSchema (assoc "confirmPassword" payload) = DIRTY c ic ->
  p <> c ->
  safeParse (ResetPasswordSchema passwordSchema payload)
  = inr (under "password" ip ++ under "confirmPassword" ic
         ++ [{| issue_path := ["confirmPassword"];
                issue_message := "The passwords did not match" |}]).
Proof.
  intros Hp Hc Hne. unfold ResetPasswordSchema, refine, object2.
  rewrite Hp, Hc. cbn [password confirmPassword issuesOf safeParse].
  rewrite bool_decide_eq_false_2 by done. by rewrite <- app_assoc.
Qed.

End SchemaFacts.

(** ** The further properties on the scenarios *)

Lemma none_matches_ghost :
  forall u, u ∈ [Scenario.bob; Scenario.alice] ->
    email u <> "ghost@example.com" /\ username u <> "ghost@example.com".
Proof.
  intros u Hu.
  apply Forall_forall with (x := u) (l := [Scenario.bob; Scenario.alice]);
    [|exact Hu].
  repeat constructor; discriminate.
Qed.

Lemma committed_username_matches_witness :
  let w := Scenario.world (Scenario.verified "alice") in
  let data : Session := {[ "resetPasswordUsername" := "alice" ]} in
  let cookie := @commitSession Codec.storage data in
  SessionCommitted data cookie
    ∈ (handleVerification (SS := Codec.storage) Scenario.args w).2 /\
  data !! "resetPasswordUsername" = Some "alice" /\
  exists s v u,
    heap w !! submission Scenario.args = Some s /\ value s = Some v /\
    u ∈ users w /\ username u = "alice" /\
    (email u = target v \/ username u = target v).
Proof.
  intros w data cookie.
  assert (Hin : SessionCommitted data cookie
                  ∈ (handleVerification (SS := Codec.storage) Scenario.args w).2).
  { vm_compute. do 2 apply list_elem_of_further. apply list_elem_of_here. }
  assert (Hname : data !! "resetPasswordUsername" = Some "alice")
    by (vm_compute; reflexivity).
  split; [exact Hin|]. split; [exact Hname|].
  exact (committed_username_matches (SS := Codec.storage)
           Scenario.args w data cookie "alice" Hin Hname).
Defined.


(** The username and the email of [alice], in two runs. *)
Lemma success_response_by_username_witness :
  let s1 := Scenario.verified "alice" in
  let s2 := Scenario.verified "alice@example.com" in
  let v1 := {| target := "alice" |} in
  let v2 := {| target := "alice@example.com" |} in
  let w1 := Scenario.world s1 in
  let w2 := Scenario.world s2 in
  let args := Scenario.args in
  heap w1 !! submission args = Some s1 /\ value s1 = Some v1 /\
  filter (fun a => email a = target v1 \/ username a = target v1) (users w1)
  = [Scenario.alice] /\
  heap w2 !! submission args = Some s2 /\ value s2 = Some v2 /\
  filter (fun a => email a = target v2 \/ username a = target v2) (users w2)
  = [Scenario.alice] /\
  username Scenario.alice = username Scenario.alice /\
  headers_get "cookie" (request args) = headers_get "cookie" (request args) /\
  (handleVerification (SS := Codec.storage) args w1).1.1
  = (handleVerification (SS := Codec.storage) args w2).1.1.
Proof.
  intros s1 s2 v1 v2 w1 w2 args.
  assert (Hs1 : heap w1 !! submission args = Some s1) by (vm_compute; reflexivity).
  assert (Hs2 : heap w2 !! submission args = Some s2) by (vm_compute; reflexivity).
  assert (Hf1 : filter (fun a => email a = target v1 \/ username a = target v1)
                  (users w1) = [Scenario.alice]) by (vm_compute; reflexivity).
  assert (Hf2 : filter (fun a => email a = target v2 \/ username a = target v2)
                  (users w2) = [Scenario.alice]) by (vm_compute; reflexivity).
  split; [exact Hs1|]. split; [reflexivity|]. split; [exact Hf1|].
  split; [exact Hs2|]. split; [reflexivity|]. split; [exact Hf2|].
  split; [reflexivity|]. split; [reflexivity|].
  exact (success_response_by_username (SS := Codec.storage)
           args w1 s1 v1 Scenario.alice args w2 s2 v2 Scenario.alice
           Hs1 eq_refl Hf1 Hs2 eq_refl Hf2 eq_refl eq_refl).
Defined.

(** A store with accounts and a request without cookie, against an
    empty store and a request with a session cookie. *)
Lemma not_found_response_by_submission_witness :
  let s := Scenario.verified "ghost@example.com" in
  let v := {| target := "ghost@example.com" |} in
  let w1 := Scenario.world s in
  let w2 := Scenario2.empty s in
  heap w1 !! submission Scenario.args = Some s /\
  heap w2 !! submission Scenario.argsWithSession = Some s /\
  value s = Some v /\
  (forall u, u ∈ users w1 -> email u <> target v /\ username u <> target v) /\
  (forall u, u ∈ users w2 -> email u <> target v /\ username u <> target v) /\
  (handleVerification (SS := Codec.storage) Scenario.args w1).1.1
  = (handleVerification (SS := Codec.storage) Scenario.argsWithSession w2).1.1.
Proof.
  intros s v w1 w2.
  assert (Hs1 : heap w1 !! submission Scenario.args = Some s)
    by (vm_compute; reflexivity).
  assert (Hs2 : heap w2 !! submission Scenario.argsWithSession = Some s)
    by (vm_compute; reflexivity).
  assert (Hno2 : forall u, u ∈ users w2 ->
                   email u <> target v /\ username u <> target v).
  { intros u Hu. by apply elem_of_nil in Hu. }
  split; [exact Hs1|]. split; [exact Hs2|]. split; [reflexivity|].
  split; [exact none_matches_ghost|]. split; [exact Hno2|].
  exact (not_found_response_by_submission (SS := Codec.storage)
           Scenario.args w1 Scenario.argsWithSession w2 s v
           Hs1 Hs2 eq_refl none_matches_ghost Hno2).
Defined.

(** A submission that came in with a form error. *)
Lemma error_body_echoes_submission_witness :
  let s := Scenario2.flagged "ghost@example.com" in
  let v := {| target := "ghost@example.com" |} in
  let w := Scenario.world s in
  heap w !! submission Scenario.args = Some s /\
  value s = Some v /\
  (forall u, u ∈ users w -> email u <> target v /\ username u <> target v) /\
  exists resp data,
    (handleVerification (SS := Codec.storage) Scenario.args w).1.1
    = Normal resp /\
    body resp = Some data /\
    jpath ["submission"; "intent"] data = Some (JString (intent s)) /\
    jpath ["submission"; "value"; "target"] data = Some (JString (target v)) /\
    forall k, k <> "code" ->
      jpath ["submission"; "error"; k] data = to_json <$> (error s !! k).
Proof.
  intros s v w.
  assert (Hs : heap w !! submission Scenario.args = Some s)
    by (vm_compute; reflexivity).
  split; [exact Hs|]. split; [reflexivity|]. split; [exact none_matches_ghost|].
  exact (error_body_echoes_submission (SS := Codec.storage)
           Scenario.args w s v Hs eq_refl none_matches_ghost).
Defined.

Section ActionScenario.

Import Scenario2.

Lemma mismatch_response : (action parse request w).1.1 = Normal resp.
Proof. vm_compute. reflexivity. Qed.

Lemma action_response_sound_witness :
  (action parse request w).1.1 = Normal resp /\
  exists data,
    body resp = Some data /\
    ((status resp = 200%Z /\ jget "status" data = Some (JString "idle") /\
      intent (parse (req_formData request)) <> "submit")
     \/ (status resp = 400%Z /\ jget "status" data = Some (JString "error") /\
         intent (parse (req_formData request)) = "submit" /\
         ~ exists v, value (parse (req_formData request)) = Some v /\
                     password v <> "")).
Proof.
  split; [exact mismatch_response|].
  exact (action_response_sound parse request w resp mismatch_response).
Defined.


Lemma button_pending_witness :
  let navigation := Scenario2.submittingPost in
  let formAction := "/reset-password" in
  (action parse request w).1.1 = Normal resp /\
  (statusButton_status navigation formAction (body resp) = JString "pending"
   <-> nav_state navigation = NavSubmitting /\
       nav_formAction navigation = Some formAction /\
       nav_formMethod navigation = Some "POST") /\
  (statusButton_status navigation formAction (body resp) = JString "pending"
   -> statusButton_disabled navigation = true).
Proof.
  intros navigation formAction.
  split; [exact mismatch_response|].
  exact (button_pending parse request w resp navigation formAction
           mismatch_response).
Defined.

Lemma button_after_action_witness :
  let navigation := Scenario2.idleNavigation in
  let formAction := "/reset-password" in
  (action parse request w).1.1 = Normal resp /\
  nav_state navigation = NavIdle /\
  statusButton_disabled navigation = false /\
  (statusButton_status navigation formAction (body resp) = JString "error"
   <-> status resp = 400%Z) /\
  (statusButton_status navigation formAction (body resp) = JString "idle"
   <-> status resp = 200%Z).
Proof.
  intros navigation formAction.
  split; [exact mismatch_response|]. split; [reflexivity|].
  exact (button_after_action parse request w resp navigation formAction
           mismatch_response eq_refl).
Defined.

End ActionScenario.

Lemma schema_mismatch_witness :
  let payload := req_formData Scenario2.request in
  Scenario2.passwordSchema (assoc "password" payload) = Zod.OK "hunter22" /\
  Scenario2.passwordSchema (assoc "confirmPassword" payload)
  = Zod.OK "hunter23" /\
  "hunter22" <> "hunter23" /\
  Zod.safeParse (ResetPasswordSchema Scenario2.passwordSchema payload)
  = inr [{| Zod.issue_path := ["confirmPassword"];
            Zod.issue_message := "The passwords did not match" |}].
Proof.
  intros payload.
  assert (Hp : Scenario2.passwordSchema (assoc "password" payload)
               = Zod.OK "hunter22") by (vm_compute; reflexivity).
  assert (Hc : Scenario2.passwordSchema (assoc "confirmPassword" payload)
               = Zod.OK "hunter23") by (vm_compute; reflexivity).
  assert (Hne : "hunter22" <> "hunter23") by discriminate.
  split; [exact Hp|]. split; [exact Hc|]. split; [exact Hne|].
  exact (schema_mismatch Scenario2.passwordSchema payload _ _ Hp Hc Hne).
Defined.

(** The confirmation field is missing from the form. *)
Lemma schema_aborted_witness :
  let payload := [("password", "hunter22")] in
  ((exists i, Scenario2.passwordSchema (assoc "password" payload)
              = Zod.INVALID i) \/
   (exists i, Scenario2.passwordSchema (assoc "confirmPassword" payload)
              = Zod.INVALID i)) /\
  Zod.safeParse (ResetPasswordSchema Scenario2.passwordSchema payload)
  = inr (Zod.under "password"
           (Zod.issuesOf (Scenario2.passwordSchema (assoc "password" payload)))
         ++ Zod.under "confirmPassword"
              (Zod.issuesOf
                 (Scenario2.passwordSchema (assoc "confirmPassword" payload)))).
Proof.
  intros payload.
  assert (Hi : (exists i, Scenario2.passwordSchema (assoc "password" payload)
                          = Zod.INVALID i) \/
               (exists i, Scenario2.passwordSchema
                            (assoc "confirmPassword" payload)
                          = Zod.INVALID i)).
  { right. exists [Zod.mkIssue [] "Password is required"]. reflexivity. }
  split; [exact Hi|].
  exact (schema_aborted Scenario2.passwordSchema payload Hi).
Defined.

(** Two passwords that are too short and differ. *)
Lemma schema_dirty_mismatch_witness :
  let payload := [("password", "abc"); ("confirmPassword", "abcd")] in
  let short := [Zod.mkIssue [] "Password is too short"] in
  Scenario2.passwordSchema (assoc "password" payload) = Zod.DIRTY "abc" short /\
  Scenario2.passwordSchema (assoc "confirmPassword" payload)
  = Zod.DIRTY "abcd" short /\
  "abc" <> "abcd" /\
  Zod.safeParse (ResetPasswordSchema Scenario2.passwordSchema payload)
  = inr (Zod.under "password" short ++ Zod.under "confirmPassword" short
         ++ [{| Zod.issue_path := ["confirmPassword"];
                Zod.issue_message := "The passwords did not match" |}]).
Proof.
  intros payload short.
  assert (Hp : Scenario2.passwordSchema (assoc "password" payload)
               = Zod.DIRTY "abc" short) by (vm_compute; reflexivity).
  assert (Hc : Scenario2.passwordSchema (assoc "confirmPassword" payload)
               = Zod.DIRTY "abcd" short) by (vm_compute; reflexivity).
  assert (Hne : "abc" <> "abcd") by discriminate.
  split; [exact Hp|]. split; [exact Hc|]. split; [exact Hne|].
  exact (schema_dirty_mismatch Scenario2.passwordSchema payload _ _ _ _
           Hp Hc Hne).
Defined.
